(** * MovieBot: the user preference model and the policy input encoder

    A shallow embedding of [moviebot/user_modeling/user_model.py] and of
    [moviebot/dialogue_manager/dialogue_policy/neural_dialogue_policy.py],
    followed by the properties of the two modules.  The message builders of
    [moviebot/controller/messenger_flask.py] are embedded as well; its two
    methods that post to the network are not.

    Conventions of the embedding:
    - a Python [dict] is a finite map [gmap string V]; a [defaultdict] is
      such a map read through [defaultdict_getitem], which stores the
      default under a missing key before returning it;
    - a method that mutates [self] returns the new object; a method that
      both returns a value and may mutate returns a pair;
    - a call that can raise returns a [result];
    - a Python [float] is an exact rational [Q]: the only float operations
      of the two modules are sums of the values 1.0, -1.0 and 0.0, which
      binary64 represents exactly, and one final quotient, of which [Q]
      holds the real value that the float rounds; a float flag of a
      dialogue state keeps its value in a tensor, where the program rounds
      it to 32 bits;
    - the rows of a query result are tuples of column values, as a cursor
      of the Python database interface returns them;
    - the order in which a [dict] is iterated is not kept: the one loop
      over a [dict] adds up such values, and the sum does not depend on
      the order. *)

From Stdlib Require Import QArith Lqa.
From stdpp Require Import gmap strings list fin_maps sorting.

Local Open Scope string_scope.

(** ** Python values shared by both modules *)

Module Py.

Inductive exn : Type :=
| TypeError
| ZeroDivisionError
| IndexError
| NotImplementedError
| AttributeError
| DatabaseError.

Inductive result (A : Type) : Type :=
| Ok (a : A)
| Raise (e : exn).
Arguments Ok {A} a.
Arguments Raise {A} e.

Definition bind {A B} (r : result A) (k : A → result B) : result B :=
  match r with
  | Ok a => k a
  | Raise e => Raise e
  end.

(** [x / n] on a float and an int. *)
Definition truediv (x : Q) (n : Z) : result Q :=
  if (n =? 0)%Z then Raise ZeroDivisionError else Ok (x / inject_Z n)%Q.

(** [l[i]] on a list. *)
Definition getitem {A} (l : list A) (i : nat) : result A :=
  match l !! i with
  | Some a => Ok a
  | None => Raise IndexError
  end.

(** The two kinds of Python value that meet in a membership test of the
    user model: a string, and a tuple of strings. *)
Inductive value : Type :=
| Str (s : string)
| Tuple (items : list string).

(** [a == b]: a string and a tuple are never equal. *)
Definition value_eqb (a b : value) : bool :=
  match a, b with
  | Str s, Str s' => String.eqb s s'
  | Tuple items, Tuple items' => bool_decide (items = items')
  | _, _ => false
  end.

(** [x in l] on a list. *)
Definition contains (l : list value) (x : value) : bool :=
  existsb (value_eqb x) l.

(** [d[k]] on a [defaultdict] whose factory returns [default]: a missing
    key is first bound to the default. *)
Definition defaultdict_getitem {V} (default : V) (d : gmap string V)
    (k : string) : V * gmap string V :=
  match d !! k with
  | Some v => (v, d)
  | None => (default, <[k := default]> d)
  end.

(** [d.update(other)]: every key of [other] is bound to its value in
    [other]; the other keys keep theirs. *)
Definition dict_update {V} (d other : gmap string V) : gmap string V :=
  other ∪ d.

End Py.

Import Py.

#[global] Instance result_ret : MRet result := @Ok.
#[global] Instance result_bind : MBind result := fun A B k r => Py.bind r k.

(** ** user_model.py *)

Module UserModel.

(** Modelled from the spec: [moviebot.database.database.DataBase] is not
    among the sources.  The item store is "a shared, read-mostly external
    resource" that this module only queries, and an unreachable store is an
    error that is "propagated, not retried".  [fetchall database query]
    stands for
    [database.sql_connection.cursor().execute(query).fetchall()], the call
    of [compute_tag_preference] on a cursor of the Python database
    interface: it gives the list of the rows of the result, each row the tuple
    of its column values (here the one column ID), or the exception that the
    store raises for the query. *)
Record DataBase : Type := {
  _get_table_name : string;
  fetchall : string → result (list (list string));
}.

Record t : Type := {
  user_id : string;
  _movies_choices : gmap string (list string);
  tag_preferences : gmap string (gmap string Q);
}.

Definition with_movies_choices (self : t) (d : gmap string (list string)) : t :=
  {| user_id := user_id self;
     _movies_choices := d;
     tag_preferences := tag_preferences self |}.

Definition with_tag_preferences (self : t) (d : gmap string (gmap string Q)) : t :=
  {| user_id := user_id self;
     _movies_choices := _movies_choices self;
     tag_preferences := d |}.

(** [UserModel(user_id, historical_movie_choices_path)].  The argument
    [historical_movie_choices] is the dictionary read from the JSON file,
    [None] when no path is given or no file exists at the path. *)
Definition __init__ (user_id : string)
    (historical_movie_choices : option (gmap string (list string))) : t :=
  {| user_id := user_id;
     _movies_choices :=
       match historical_movie_choices with
       | Some movie_choices => dict_update ∅ movie_choices
       | None => ∅
       end;
     tag_preferences := ∅ |}.

Definition movie_choices (self : t) : gmap string (list string) :=
  _movies_choices self.

(** [self._movies_choices[movie_id].append(choice)] *)
Definition update_movie_choice (self : t) (movie_id choice : string) : t :=
  let '(choices, d) := defaultdict_getitem [] (_movies_choices self) movie_id in
  with_movies_choices self (<[movie_id := (choices ++ [choice])%list]> d).

(** [self._movies_choices.update(movies_choices)] *)
Definition update_movies_choices (self : t)
    (movies_choices : gmap string (list string)) : t :=
  with_movies_choices self (dict_update (_movies_choices self) movies_choices).

(** [return self._movies_choices[movie_id]] *)
Definition get_movie_choices (self : t) (movie_id : string) : list string * t :=
  let '(choices, d) := defaultdict_getitem [] (_movies_choices self) movie_id in
  (choices, with_movies_choices self d).

Definition _convert_choice_to_preference (choice : string) : Q :=
  if String.eqb choice "accept" then 1%Q
  else if bool_decide (choice ∈ ["reject"; "dont_like"]) then (-1)%Q
  else 0%Q.

(** The text of the query of [compute_tag_preference]. *)
Definition tag_query (database : DataBase) (slot tag : string) : string :=
  "SELECT ID FROM " ++ _get_table_name database ++ " WHERE " ++ slot
    ++ " LIKE " ++ "'%" ++ tag ++ "%'".

(** The inner loop: [for choice in choices]. *)
Definition rate_choices (acc : Q * Z) (choices : list string) : Q * Z :=
  foldl (fun '(preference, count_rated) choice =>
           ((preference + _convert_choice_to_preference choice)%Q,
            (count_rated + 1)%Z))
        acc choices.

(** The outer loop: [for movie_id, choices in self._movies_choices.items()],
    with the test [movie_id in tag_set] of a key of the choices against the
    rows of the result. *)
Definition rate_items (tag_set : list value) (acc : Q * Z)
    (items : list (string * list string)) : Q * Z :=
  foldl (fun acc '(movie_id, choices) =>
           if contains tag_set (Str movie_id) then rate_choices acc choices
           else acc)
        acc items.

Definition compute_tag_preference (self : t) (slot tag : string)
    (database : DataBase) : result Q :=
  rows ← fetchall database (tag_query database slot tag);
  let tag_set := Tuple <$> rows in
  let '(preference, count_rated) :=
    rate_items tag_set (0%Q, 0%Z) (map_to_list (_movies_choices self)) in
  if (0 <? count_rated)%Z then truediv preference count_rated else Ok 0%Q.

(** Python's binding of a call [self.compute_tag_preference(slot, tag, ...)]:
    [database] is a required positional parameter, so a call that does not
    supply it raises [TypeError] before the body runs. *)
Definition call_compute_tag_preference (self : t) (slot tag : string)
    (database : option DataBase) : result Q :=
  match database with
  | Some db => compute_tag_preference self slot tag db
  | None => Raise TypeError
  end.

(** [preference = self.tag_preferences[slot].get(tag, None)], then
    [return self.compute_tag_preference(slot, tag)] when it is [None]:
    the call passes no database. *)
Definition get_tag_preference (self : t) (slot tag : string) : result Q * t :=
  let '(slot_preferences, d) :=
    defaultdict_getitem ∅ (tag_preferences self) slot in
  let self := with_tag_preferences self d in
  match slot_preferences !! tag with
  | None => (call_compute_tag_preference self slot tag None, self)
  | Some preference => (Ok preference, self)
  end.

(** [self.tag_preferences[slot][tag] = preference] *)
Definition set_tag_preference (self : t) (slot tag : string)
    (preference : Q) : t :=
  let '(slot_preferences, d) :=
    defaultdict_getitem ∅ (tag_preferences self) slot in
  with_tag_preferences self (<[slot := <[tag := preference]> slot_preferences]> d).

(** A call of one of the operations that change the model. *)
Inductive op : Type :=
| UpdateMovieChoice (movie_id choice : string)
| UpdateMoviesChoices (movies_choices : gmap string (list string))
| SetTagPreference (slot tag : string) (preference : Q).

Definition step (self : t) (o : op) : t :=
  match o with
  | UpdateMovieChoice movie_id choice => update_movie_choice self movie_id choice
  | UpdateMoviesChoices movies_choices => update_movies_choices self movies_choices
  | SetTagPreference slot tag preference => set_tag_preference self slot tag preference
  end.

Definition run (self : t) (ops : list op) : t := foldl step self ops.

(** The history of one item as [get_movie_choices] reads it. *)
Definition recorded (self : t) (movie_id : string) : list string :=
  (get_movie_choices self movie_id).1.

(** The choices that the calls of [update_movie_choice] among [ops] record
    for one item, in the order of the calls. *)
Definition appended (movie_id : string) (ops : list op) : list string :=
  ops ≫= (fun o =>
    match o with
    | UpdateMovieChoice id choice => if decide (id = movie_id) then [choice] else []
    | _ => []
    end).

Definition is_bulk_update (o : op) : bool :=
  match o with
  | UpdateMoviesChoices _ => true
  | _ => false
  end.

(** The accumulator of the loops of [compute_tag_preference] is balanced:
    the count is not negative and the sum lies between minus the count and
    the count. *)
Definition balanced (acc : Q * Z) : Prop :=
  (0 ≤ acc.2)%Z ∧ (- inject_Z acc.2 <= acc.1 <= inject_Z acc.2)%Q.

(** The preference that the cache holds for a slot and a tag, if any. *)
Definition cached (self : t) (slot tag : string) : option Q :=
  tag_preferences self !! slot ≫= (.!! tag).

Definition in_range (preference : Q) : Prop := (-1 <= preference <= 1)%Q.

(** Every cached preference lies in [-1, 1]. *)
Definition cache_in_range (self : t) : Prop :=
  ∀ slot tag preference, cached self slot tag = Some preference → in_range preference.

(** Every call of [set_tag_preference] among the operations passes a
    preference of [-1, 1]. *)
Definition sets_in_range (o : op) : Prop :=
  match o with
  | SetTagPreference _ _ preference => in_range preference
  | _ => True
  end.

Definition sets_tag (slot tag : string) (o : op) : Prop :=
  match o with
  | SetTagPreference slot' tag' _ => slot' = slot ∧ tag' = tag
  | _ => False
  end.

End UserModel.

(** ** neural_dialogue_policy.py *)

(** [torch]: a one-dimensional float tensor is the list of its elements. *)
Module torch.

Definition Tensor : Type := list Q.

(** The conversion of a Python number to [torch.float]. *)
Class ToFloat (A : Type) : Type := to_float : A → Q.

#[global] Instance bool_to_float : ToFloat bool :=
  fun b => if b then 1%Q else 0%Q.

#[global] Instance int_to_float : ToFloat Z := inject_Z.

(** [torch.tensor(data, dtype=torch.float)] *)
Definition tensor {A} `{ToFloat A} (data : list A) : Tensor := to_float <$> data.

(** [torch.zeros(n, dtype=torch.float)] *)
Definition zeros (n : nat) : Tensor := replicate n 0%Q.

(** [torch.cat(tensors, dim=0)] *)
Definition cat (tensors : list Tensor) : Tensor := concat tensors.

End torch.

(** [sklearn.preprocessing.MultiLabelBinarizer]: [fit] keeps the sorted set
    of the labels it sees as [classes_]; [transform] turns each sample into
    one row with an entry per class, 1 when the class is among the sample's
    labels and 0 otherwise (a label outside [classes_] is ignored with a
    warning). *)
Module MultiLabelBinarizer.

Record t : Type := { classes_ : list string }.

Definition label_le (a b : string) : Prop := Is_true (String.leb a b).

#[global] Instance label_le_dec a b : Decision (label_le a b) := _.

(** [sorted(set(labels))] *)
Definition sorted_set (labels : list string) : list string :=
  merge_sort label_le (remove_dups labels).

Definition fit (y : list (list string)) : t :=
  {| classes_ := sorted_set (concat y) |}.

Definition transform_row (self : t) (labels : list string) : list Z :=
  (fun c => if bool_decide (c ∈ labels) then 1%Z else 0%Z) <$> classes_ self.

Definition transform (self : t) (y : list (list string)) : list (list Z) :=
  transform_row self <$> y.

End MultiLabelBinarizer.

Module NeuralDialoguePolicy.

(** A flag of a dialogue state: a boolean or a float. *)
Inductive flag : Type :=
| FlagBool (b : bool)
| FlagFloat (x : Q).

(** The conversion of a flag to [torch.float]: [True] is 1.0 and [False] is
    0.0; a float keeps its value, up to the rounding to 32 bits, which
    the rationals do not show. *)
#[global] Instance flag_to_float : torch.ToFloat flag :=
  fun f =>
    match f with
    | FlagBool b => torch.to_float b
    | FlagFloat x => x
    end.

(** Modelled from the spec: [moviebot.dialogue_manager.dialogue_state] is
    not among the sources.  A dialogue state is "a record of boolean/float
    flags describing conversational progress"; the fields are the eight
    attributes that [build_input_from_dialogue_state] reads. *)
Record DialogueState : Type := {
  is_beginning : flag;
  agent_req_filled : flag;
  agent_can_lookup : flag;
  agent_made_partial_offer : flag;
  agent_should_make_offer : flag;
  agent_made_offer : flag;
  agent_offer_no_results : flag;
  at_terminal_state : flag;
}.

(** Modelled from the spec: the enumerations [UserIntents] and
    [AgentIntents] of [moviebot.core.intents] are not among the sources.
    An intent is "an enumerated value with a stable string label": an
    enumeration is the list of its members in definition order, and
    [label x] stands for [x.value.label]. *)
Record IntentEnum : Type := {
  intent : Type;
  members : list intent;
  label : intent → string;
}.

(** The keyword arguments that the class methods look at. *)
Record kwargs (UserIntents AgentIntents : IntentEnum) : Type := {
  b_use_intents : option bool;
  user_intents : option (list (intent UserIntents));
  agent_intents : option (list (intent AgentIntents));
}.
Arguments b_use_intents {_ _} _.
Arguments user_intents {_ _} _.
Arguments agent_intents {_ _} _.

Record t (Action : Type) : Type := {
  possible_actions : list Action;
  input_size : Z;
  hidden_size : Z;
  output_size : Z;
}.
Arguments possible_actions {_} _.
Arguments input_size {_} _.
Arguments hidden_size {_} _.
Arguments output_size {_} _.

(** The body of [__init__], lines 39 to 45, run on a new instance: the four
    arguments are stored. *)
Definition __init__ {Action} (input_size hidden_size output_size : Z)
    (possible_actions : list Action) : result (t Action) :=
  Ok {| possible_actions := possible_actions;
        input_size := input_size;
        hidden_size := hidden_size;
        output_size := output_size |}.

(** What a [def] of the class body is once its decorators are applied: a
    plain function or a [classmethod] object. *)
Inductive member : Type :=
| Function
| ClassMethod.

(** [classmethod(f)] *)
Definition classmethod (f : member) : result member := Ok ClassMethod.

(** [abstractmethod(f)] sets [f.__isabstractmethod__ = True] and returns
    [f].  A function takes the attribute; on a [classmethod] object the
    attribute cannot be written and the assignment raises
    [AttributeError]. *)
Definition abstractmethod (f : member) : result member :=
  match f with
  | Function => Ok Function
  | ClassMethod => Raise AttributeError
  end.

(** The class statement, lines 16 to 202: the methods in the order of the
    source, each with its decorators applied from the one next to the
    [def] outwards.  [load_policy] is written [@abstractmethod] over
    [@classmethod]. *)
Definition class_body : result unit :=
  Ok Function ;;                                   (* __init__ *)
  abstractmethod Function ;;                       (* forward *)
  abstractmethod Function ;;                       (* select_action *)
  abstractmethod Function ;;                       (* save_policy *)
  (classmethod Function ≫= abstractmethod) ;;      (* load_policy *)
  classmethod Function ;;          (* build_input_from_dialogue_state *)
  classmethod Function ;;          (* build_input_from_dialogue_state_and_intents *)
  classmethod Function ;;                          (* build_input *)
  Ok ().

(** [NeuralDialoguePolicy(input_size, hidden_size, output_size,
    possible_actions)] in a program that runs the class statement and
    then calls the class. *)
Definition new {Action} (input_size hidden_size output_size : Z)
    (possible_actions : list Action) : result (t Action) :=
  class_body ;;
  __init__ input_size hidden_size output_size possible_actions.

Definition forward {Action} (self : t Action) (state : torch.Tensor)
  : result torch.Tensor := Raise NotImplementedError.

Definition select_action {Action} (self : t Action) (state : torch.Tensor)
  : result Action := Raise NotImplementedError.

Definition build_input_from_dialogue_state (dialogue_state : DialogueState)
  : torch.Tensor :=
  torch.tensor
    [ is_beginning dialogue_state;
      agent_req_filled dialogue_state;
      agent_can_lookup dialogue_state;
      agent_made_partial_offer dialogue_state;
      agent_should_make_offer dialogue_state;
      agent_made_offer dialogue_state;
      agent_offer_no_results dialogue_state;
      at_terminal_state dialogue_state ].

Section Encoders.

Variables UserIntents AgentIntents : IntentEnum.

(** [MultiLabelBinarizer().fit([list(map(lambda x: x.value.label, E))])] *)
Definition label_encoder (E : IntentEnum) : MultiLabelBinarizer.t :=
  MultiLabelBinarizer.fit [label E <$> members E].

Definition user_label_encoder : MultiLabelBinarizer.t :=
  label_encoder UserIntents.

Definition agent_label_encoder : MultiLabelBinarizer.t :=
  label_encoder AgentIntents.

(** The block [if len(intents) == 0: ... else: ...], which the source writes
    twice: with [cls.user_label_encoder] for [user_intents] and with
    [cls.agent_label_encoder] for [agent_intents]. *)
Definition intents_tensor (E : IntentEnum) (intents : list (intent E))
  : result torch.Tensor :=
  if (length intents =? 0)%nat then
    Ok (torch.zeros (length (MultiLabelBinarizer.classes_ (label_encoder E))))
  else
    row ← getitem
            (MultiLabelBinarizer.transform (label_encoder E)
               [label E <$> intents]) 0;
    Ok (torch.tensor row).

Definition build_input_from_dialogue_state_and_intents
    (dialogue_state : DialogueState)
    (user_intents : list (intent UserIntents))
    (agent_intents : list (intent AgentIntents)) : result torch.Tensor :=
  let dialogue_state_tensor :=
    build_input_from_dialogue_state dialogue_state in
  user_intents_tensor ← intents_tensor UserIntents user_intents;
  agent_intents_tensor ← intents_tensor AgentIntents agent_intents;
  Ok (torch.cat
        [dialogue_state_tensor; user_intents_tensor; agent_intents_tensor]).

(** [kwargs.get("b_use_intents", False)] decides; the call
    [build_input_from_dialogue_state_and_intents(dialogue_state, **kwargs)]
    takes its two intent lists from the keyword arguments and raises
    [TypeError] when one is missing. *)
Definition build_input (dialogue_state : DialogueState)
    (kw : kwargs UserIntents AgentIntents) : result torch.Tensor :=
  if default false (b_use_intents kw) then
    match user_intents kw, agent_intents kw with
    | Some user_intents, Some agent_intents =>
        build_input_from_dialogue_state_and_intents
          dialogue_state user_intents agent_intents
    | _, _ => Raise TypeError
    end
  else Ok (build_input_from_dialogue_state dialogue_state).

End Encoders.

End NeuralDialoguePolicy.

(** ** Notions used to state how the operations of the user model compose *)

Module UserModelNotions.

Import UserModel.

(** Two results are the same preference: both raise the same exception, or
    both return, and the returned rationals are equal as numbers. *)
Definition same_preference (r1 r2 : result Q) : Prop :=
  match r1, r2 with
  | Ok p1, Ok p2 => (p1 == p2)%Q
  | Raise e1, Raise e2 => e1 = e2
  | _, _ => False
  end.

(** The value of the last call [set_tag_preference(slot, tag, _)] among the
    operations, if there is one. *)
Definition last_set (slot tag : string) (ops : list op) : option Q :=
  foldl (fun found o =>
           match o with
           | SetTagPreference slot' tag' preference =>
               if decide (slot' = slot ∧ tag' = tag) then Some preference
               else found
           | _ => found
           end)
        None ops.

End UserModelNotions.

(** ** Notions used to state what the encoder computes *)

Module EncoderNotions.

Import NeuralDialoguePolicy.

(** The classes of the encoder fitted on an enumeration. *)
Definition classes (E : IntentEnum) : list string :=
  MultiLabelBinarizer.classes_ (label_encoder E).

(** A flag that is a boolean. *)
Definition is_boolean (f : flag) : Prop := ∃ b, f = FlagBool b.

(** A dialogue state whose eight flags are booleans. *)
Definition boolean_flags (dialogue_state : DialogueState) : Prop :=
  Forall is_boolean
    [ is_beginning dialogue_state;
      agent_req_filled dialogue_state;
      agent_can_lookup dialogue_state;
      agent_made_partial_offer dialogue_state;
      agent_should_make_offer dialogue_state;
      agent_made_offer dialogue_state;
      agent_offer_no_results dialogue_state;
      at_terminal_state dialogue_state ].

(** The multi-hot vector of a list of labels over a list of classes: 1 at the
    position of a class that is among the labels, 0 elsewhere. *)
Definition multi_hot (classes labels : list string) : torch.Tensor :=
  (fun c => if bool_decide (c ∈ labels) then 1%Q else 0%Q) <$> classes.

End EncoderNotions.

(** ** messenger_flask.py *)

Module MessengerFlask.

(** The values that the adapter puts into its messages: strings, lists and
    dictionaries; a dictionary literal keeps the order in which its keys are
    written. *)
#[local] Unset Elimination Schemes.
Inductive json : Type :=
| JString (s : string)
| JArray (items : list json)
| JObject (fields : list (string * json)).
#[local] Set Elimination Schemes.

Inductive exn : Type :=
| KeyError (key : string)
| IndexError.

Inductive outcome (A : Type) : Type :=
| Return (a : A)
| Raised (e : exn).
Arguments Return {A} a.
Arguments Raised {A} e.

#[global] Instance outcome_ret : MRet outcome := @Return.
#[global] Instance outcome_bind : MBind outcome := fun A B k r =>
  match r with
  | Return a => k a
  | Raised e => Raised e
  end.

(** [d[k]] on a [dict]. *)
Definition dict_getitem (d : gmap string json) (k : string) : outcome json :=
  match d !! k with
  | Some v => Return v
  | None => Raised (KeyError k)
  end.

(** [l[i]] on a list, for an index that is not negative. *)
Definition list_getitem (l : list json) (i : nat) : outcome json :=
  match l !! i with
  | Some v => Return v
  | None => Raised IndexError
  end.

(** [v == s] for a string literal [s]. *)
Definition eq_str (v : json) (s : string) : bool :=
  match v with
  | JString s' => String.eqb s' s
  | _ => false
  end.

Record t : Type := {
  user_id : json;
  buttons : list (string * json);
  token : string;
  typing_on_uri : string;
  mark_seen_uri : string;
}.

Definition __init__ (user_id : json) (token : string) : t :=
  {| user_id := user_id;
     buttons := [];
     token := token;
     typing_on_uri :=
       "https://graph.facebook.com/v2.6/me/messages?access_token=" ++ token;
     mark_seen_uri :=
       "https://graph.facebook.com/v2.6/me/messages?access_token=" ++ token |}.

(** The loop [for i, title in enumerate(title)] of [quickreply], from
    index [i] on. *)
Fixpoint quickreply_loop (i : nat) (title payload replies : list json)
    : outcome (list json) :=
  match title with
  | [] => Return replies
  | title_i :: title =>
      payload_i ← list_getitem payload i;
      quickreply_loop (S i) title payload
        (replies ++ [JObject [("content_type", JString "text");
                              ("title", title_i);
                              ("payload", payload_i)]])%list
  end.

Definition quickreply (self : t) (text : json) (title payload : list json)
    : outcome json :=
  replies ← quickreply_loop 0 title payload [];
  Return
    (JObject [("recipient", JObject [("id", user_id self)]);
              ("messaging_type", JString "RESPONSE");
              ("message", JObject [("text", text);
                                   ("quick_replies", JArray replies)])]).

(** The body of the loop of [create_buttons]: the two [if] statements on
    one option. *)
Definition create_buttons_body (buttons : list json) (option : gmap string json)
    : outcome (list json) :=
  button_type ← dict_getitem option "button_type";
  buttons ←
    (if eq_str button_type "postback" then
       type ← dict_getitem option "button_type";
       title ← dict_getitem option "title";
       payload ← dict_getitem option "payload";
       Return (buttons ++ [JObject [("type", type); ("title", title);
                                    ("payload", payload)]])%list
     else Return buttons);
  button_type ← dict_getitem option "button_type";
  if eq_str button_type "web_url" then
    type ← dict_getitem option "button_type";
    title ← dict_getitem option "title";
    url ← dict_getitem option "url";
    Return (buttons ++ [JObject [("type", type); ("title", title);
                                 ("url", url)]])%list
  else Return buttons.

Fixpoint create_buttons_loop (buttons : list json)
    (options : list (gmap string json)) : outcome (list json) :=
  match options with
  | [] => Return buttons
  | option :: options =>
      buttons ← create_buttons_body buttons option;
      create_buttons_loop buttons options
  end.

Definition create_buttons (self : t) (options : list (gmap string json))
    : outcome (list json) :=
  create_buttons_loop [] options.

Definition url_button (self : t) (title : json)
    (options : list (gmap string json)) : outcome json :=
  buttons ← create_buttons self options;
  Return
    (JObject
       [("recipient", JObject [("id", user_id self)]);
        ("message",
         JObject
           [("attachment",
             JObject
               [("type", JString "template");
                ("payload",
                 JObject [("template_type", JString "button");
                          ("text", title);
                          ("buttons", JArray buttons)])])])]).

(** [text(message, intent="UNK")]: [intent] is [None] when the caller does
    not pass it. *)
Definition text (self : t) (message : json) (intent : option json) : json :=
  JObject [("recipient", JObject [("id", user_id self)]);
           ("message", JObject [("text", message);
                                ("intent", default (JString "UNK") intent)])].

Definition template (self : t) (buttons image url subtitle title : json)
    : json :=
  JObject
    [("recipient", JObject [("id", user_id self)]);
     ("message",
      JObject
        [("attachment",
          JObject
            [("type", JString "template");
             ("payload",
              JObject
                [("template_type", JString "generic");
                 ("elements",
                  JArray
                    [JObject
                       [("title", title);
                        ("image_url", image);
                        ("subtitle", subtitle);
                        ("default_action",
                         JObject [("type", JString "web_url");
                                  ("url", url);
                                  ("webview_height_ratio", JString "full")]);
                        ("buttons", buttons)]])])])])].

(** [buttons_template(buttons, text, intent="UNK")]: the dictionary
    [template] is built and dropped, and the message with the text and the
    intent is returned. *)
Definition buttons_template (self : t) (buttons text : json)
    (intent : option json) : json :=
  let template :=
    JObject
      [("recipient", JObject [("id", user_id self)]);
       ("message",
        JObject
          [("attachment",
            JObject
              [("type", JString "template");
               ("payload",
                JObject [("template_type", JString "button");
                         ("text", text);
                         ("buttons", buttons)])])])] in
  JObject [("recipient", JObject [("id", user_id self)]);
           ("message", JObject [("text", text);
                                ("intent", default (JString "UNK") intent)])].

(** An option that [create_buttons] turns into a button. *)
Definition is_button_option (option : gmap string json) : bool :=
  match option !! "button_type" with
  | Some button_type => eq_str button_type "postback" || eq_str button_type "web_url"
  | None => false
  end.

(** An option that [create_buttons] can read: it has a button type, and the
    keys that its type asks for. *)
Definition readable (option : gmap string json) : Prop :=
  ∃ button_type,
    option !! "button_type" = Some button_type
    ∧ (eq_str button_type "postback" = true →
       is_Some (option !! "title") ∧ is_Some (option !! "payload"))
    ∧ (eq_str button_type "web_url" = true →
       is_Some (option !! "title") ∧ is_Some (option !! "url")).

(** A button as [create_buttons] builds it: a postback button with a
    payload, or a web_url button with a url. *)
Definition is_button (button : json) : Prop :=
  ∃ type title key value,
    button = JObject [("type", type); ("title", title); (key, value)]
    ∧ (eq_str type "postback" = true ∧ key = "payload"
       ∨ eq_str type "web_url" = true ∧ key = "url").

End MessengerFlask.

(** * Properties of the user model *)

Section UserModelFacts.

Import UserModel.

Implicit Types (self : UserModel.t) (movie_id choice slot tag : string).
Implicit Types (d : gmap string (list string)) (acc : Q * Z).

(** ** Reading and writing the dictionaries *)

Lemma defaultdict_getitem_fst {V} (dflt : V) (m : gmap string V) k :
  (defaultdict_getitem dflt m k).1 = default dflt (m !! k).
Proof. unfold defaultdict_getitem. by destruct (m !! k). Qed.

Lemma defaultdict_getitem_snd_lookup {V} (dflt : V) (m : gmap string V) k k' :
  (defaultdict_getitem dflt m k).2 !! k' =
    if decide (k = k') then Some (default dflt (m !! k)) else m !! k'.
Proof.
  unfold defaultdict_getitem.
  destruct (m !! k) eqn:E; simpl; case_decide; simplify_map_eq; done.
Qed.

Lemma recorded_lookup self movie_id :
  recorded self movie_id = default [] (_movies_choices self !! movie_id).
Proof.
  unfold recorded, get_movie_choices.
  rewrite (surjective_pairing (defaultdict_getitem _ _ _)). simpl.
  apply defaultdict_getitem_fst.
Qed.

Lemma update_movie_choice_lookup self movie_id choice movie_id' :
  _movies_choices (update_movie_choice self movie_id choice) !! movie_id' =
    if decide (movie_id = movie_id')
    then Some (recorded self movie_id ++ [choice])%list
    else _movies_choices self !! movie_id'.
Proof.
  unfold update_movie_choice.
  rewrite (surjective_pairing (defaultdict_getitem _ _ _)). simpl.
  rewrite lookup_insert, defaultdict_getitem_fst, recorded_lookup.
  case_decide; [done |].
  rewrite defaultdict_getitem_snd_lookup. by case_decide.
Qed.

Lemma recorded_update_movie_choice self movie_id choice movie_id' :
  recorded (update_movie_choice self movie_id choice) movie_id' =
    if decide (movie_id = movie_id')
    then (recorded self movie_id' ++ [choice])%list
    else recorded self movie_id'.
Proof.
  rewrite (recorded_lookup (update_movie_choice _ _ _)).
  rewrite update_movie_choice_lookup.
  case_decide; subst; simpl; [done |]. by rewrite recorded_lookup.
Qed.

Lemma recorded_update_movies_choices self d movie_id :
  recorded (update_movies_choices self d) movie_id =
    match d !! movie_id with
    | Some choices => choices
    | None => recorded self movie_id
    end.
Proof.
  rewrite !recorded_lookup. unfold update_movies_choices, dict_update. simpl.
  destruct (d !! movie_id) eqn:E.
  - by erewrite lookup_union_Some_l.
  - by rewrite lookup_union_r.
Qed.

Lemma recorded_set_tag_preference self slot tag p movie_id :
  recorded (set_tag_preference self slot tag p) movie_id = recorded self movie_id.
Proof.
  rewrite !recorded_lookup. unfold set_tag_preference.
  by rewrite (surjective_pairing (defaultdict_getitem _ _ _)).
Qed.

(** ** The cache of tag preferences *)

Lemma get_tag_preference_fst self slot tag :
  (get_tag_preference self slot tag).1 =
    match cached self slot tag with
    | Some preference => Ok preference
    | None => Raise TypeError
    end.
Proof.
  unfold get_tag_preference, cached, defaultdict_getitem.
  destruct (tag_preferences self !! slot) as [prefs|]; simpl.
  - by destruct (prefs !! tag).
  - by rewrite lookup_empty.
Qed.

Lemma cached_get_tag_preference self slot tag slot' tag' :
  cached (get_tag_preference self slot tag).2 slot' tag' = cached self slot' tag'.
Proof.
  unfold get_tag_preference, cached, defaultdict_getitem.
  destruct (tag_preferences self !! slot) as [prefs|] eqn:E; simpl.
  - by destruct (prefs !! tag).
  - rewrite lookup_empty. simpl. rewrite lookup_insert.
    case_decide; subst; simpl; [by rewrite E, lookup_empty | done].
Qed.

Lemma cached_set_tag_preference self slot tag p slot' tag' :
  cached (set_tag_preference self slot tag p) slot' tag' =
    if decide (slot = slot' ∧ tag = tag') then Some p else cached self slot' tag'.
Proof.
  unfold set_tag_preference, cached, defaultdict_getitem.
  destruct (tag_preferences self !! slot) as [prefs|] eqn:E; simpl;
    rewrite lookup_insert; destruct (decide (slot = slot')) as [->|Hs]; simpl.
  - rewrite lookup_insert.
    destruct (decide (tag = tag')) as [->|Ht]; simpl.
    + by rewrite decide_True.
    + rewrite decide_False by (by intros [??]). by rewrite E.
  - rewrite decide_False by (by intros [??]). done.
  - rewrite lookup_insert.
    destruct (decide (tag = tag')) as [->|Ht]; simpl.
    + by rewrite decide_True.
    + rewrite decide_False by (by intros [??]). by rewrite E, lookup_empty.
  - rewrite decide_False by (by intros [??]). by rewrite lookup_insert_ne.
Qed.

(** The cached half of the contract of [get_tag_preference]: a value that
    [set_tag_preference] stored is returned as it is, whatever the choices
    recorded. *)
Lemma get_tag_preference_after_set self slot tag p :
  (get_tag_preference (set_tag_preference self slot tag p) slot tag).1 = Ok p.
Proof.
  rewrite get_tag_preference_fst, cached_set_tag_preference.
  by rewrite decide_True.
Qed.

(** ** The two loops of [compute_tag_preference] *)

Lemma _convert_choice_to_preference_range choice :
  in_range (_convert_choice_to_preference choice).
Proof.
  unfold in_range, _convert_choice_to_preference.
  destruct (String.eqb _ _); [lra |].
  case_bool_decide; lra.
Qed.

Lemma rate_choices_balanced choices acc :
  balanced acc → balanced (rate_choices acc choices).
Proof.
  unfold rate_choices.
  revert acc. induction choices as [|choice choices IH]; intros [p c] Hacc; [done |].
  simpl. apply IH.
  destruct Hacc as [Hc Hp]. unfold balanced in *. cbn [fst snd] in *.
  pose proof (_convert_choice_to_preference_range choice) as Hr.
  unfold in_range in Hr.
  split; [lia |]. rewrite inject_Z_plus. change (inject_Z 1) with 1%Q.
  clear IH. lra.
Qed.

Lemma rate_items_balanced tag_set items acc :
  balanced acc → balanced (rate_items tag_set acc items).
Proof.
  unfold rate_items.
  revert acc. induction items as [|[movie_id choices] items IH]; intros acc Hacc; [done |].
  simpl. apply IH.
  destruct (contains tag_set (Str movie_id));
    [by apply rate_choices_balanced | done].
Qed.

Lemma rate_items_idle tag_set items acc :
  (∀ movie_id choices,
     (movie_id, choices) ∈ items →
     contains tag_set (Str movie_id) = true → choices = []) →
  rate_items tag_set acc items = acc.
Proof.
  unfold rate_items.
  revert acc. induction items as [|[movie_id choices] items IH]; intros acc Hidle; [done |].
  simpl. destruct (contains tag_set (Str movie_id)) eqn:Hin.
  - rewrite (Hidle movie_id choices); [| by left | done]. simpl.
    apply IH. intros ???. apply Hidle. by right.
  - apply IH. intros ???. apply Hidle. by right.
Qed.

(** A string key is in no list of rows: each row is a tuple. *)
Lemma contains_rows (rows : list (list string)) movie_id :
  contains (Tuple <$> rows) (Str movie_id) = false.
Proof. unfold contains. by induction rows. Qed.

Lemma rate_items_rows (rows : list (list string)) items acc :
  rate_items (Tuple <$> rows) acc items = acc.
Proof.
  apply rate_items_idle. intros movie_id choices _.
  by rewrite contains_rows.
Qed.

Lemma compute_tag_preference_rows self slot tag database :
  compute_tag_preference self slot tag database
    = (rows ← fetchall database (tag_query database slot tag); Ok 0%Q).
Proof.
  unfold compute_tag_preference.
  destruct (fetchall database _) as [rows|e]; simpl; [| done].
  by rewrite rate_items_rows.
Qed.

Lemma mean_in_range (acc : Q * Z) :
  balanced acc →
  ∃ preference,
    (if (0 <? acc.2)%Z then truediv acc.1 acc.2 else Ok 0%Q) = Ok preference
    ∧ in_range preference.
Proof.
  destruct acc as [p c]. intros [Hc Hp]. cbn [fst snd] in *.
  destruct (Z.ltb_spec 0 c) as [Hpos|Hzero].
  - unfold truediv. destruct (Z.eqb_spec c 0) as [->|_]; [lia |].
    eexists; split; [done |].
    assert (0 < inject_Z c)%Q as Hq by (unfold Qlt; simpl; lia).
    unfold in_range. split.
    + apply Qle_shift_div_l; [done | lra].
    + apply Qle_shift_div_r; [done | lra].
  - exists 0%Q. split; [done |]. unfold in_range. lra.
Qed.

Lemma compute_tag_preference_returns self slot tag database rows :
  fetchall database (tag_query database slot tag) = Ok rows →
  ∃ preference,
    compute_tag_preference self slot tag database = Ok preference
    ∧ in_range preference.
Proof.
  intros Hrows. unfold compute_tag_preference. rewrite Hrows. simpl.
  rewrite (surjective_pairing (rate_items _ _ _)).
  apply mean_in_range, rate_items_balanced.
  by split; [| split; apply (Qle_refl 0)].
Qed.

Lemma compute_tag_preference_range self slot tag database preference :
  compute_tag_preference self slot tag database = Ok preference →
  in_range preference.
Proof.
  destruct (fetchall database (tag_query database slot tag)) as [rows|e] eqn:Hrows.
  - destruct (compute_tag_preference_returns self slot tag database rows Hrows)
      as (p & -> & Hp).
    by intros [= <-].
  - unfold compute_tag_preference. by rewrite Hrows.
Qed.

(** ** Reading a tag preference *)

(** C1, at a model with one accepted item and nothing cached.  The
    documented fallback of [get_tag_preference] is the value of
    [compute_tag_preference], which returns a value for a store that
    answers the query; the call in the body passes no database and raises
    [TypeError] instead of returning that value. *)
Theorem get_tag_preference_uncached_raises :
  let self := update_movie_choice (__init__ "u" None) "m1" "accept" in
  let database :=
    {| _get_table_name := "movies"; fetchall := λ _, Ok [["m1"]] |} in
  cached self "genres" "comedy" = None
  ∧ compute_tag_preference self "genres" "comedy" database = Ok 0%Q
  ∧ (get_tag_preference self "genres" "comedy").1 = Raise TypeError.
Proof. by vm_compute. Qed.

(** ** The mean of the recorded choices *)

(** C2, at the input of the claim: the choices m1: accept and m2: reject,
    reject, and a store that answers the query for the tag comedy of the
    slot genres with the rows of m1 and m2.  The claim gives
    (1 + -1 + -1) / 3; the test [movie_id in tag_set] compares each key, a
    string, with the rows, which are tuples, so that no choice is counted
    and [compute_tag_preference] returns 0.0. *)
Theorem compute_tag_preference_comedy :
  let self :=
    __init__ "u" (Some {[ "m1" := ["accept"]; "m2" := ["reject"; "reject"] ]}) in
  let database :=
    {| _get_table_name := "movies";
       fetchall := λ query,
         if String.eqb query "SELECT ID FROM movies WHERE genres LIKE '%comedy%'"
         then Ok [["m1"]; ["m2"]]
         else Raise DatabaseError |} in
  compute_tag_preference self "genres" "comedy" database = Ok 0%Q
  ∧ ¬ (0 == (1 + -1 + -1) / 3)%Q.
Proof. split; [by vm_compute | by intros H; vm_compute in H]. Qed.

(** C3: when the store reports no item for the tag, or no reported item
    has a recorded choice, [compute_tag_preference] returns 0.0; the
    division, which raises on a zero count, is not reached. *)
Theorem compute_tag_preference_no_choices self slot tag database rows :
  fetchall database (tag_query database slot tag) = Ok rows →
  rows = [] ∨
    (∀ movie_id, [movie_id] ∈ rows → recorded self movie_id = []) →
  compute_tag_preference self slot tag database = Ok 0%Q.
Proof.
  intros Hrows Hnone. unfold compute_tag_preference. rewrite Hrows. simpl.
  rewrite rate_items_idle; [done |].
  intros movie_id choices Hitem Hin.
  by rewrite contains_rows in Hin.
Qed.

Lemma compute_tag_preference_no_choices_witness :
  compute_tag_preference
    (update_movie_choice (__init__ "u" None) "m1" "accept")
    "genres" "comedy"
    {| _get_table_name := "movies"; fetchall := λ _, Ok [["m2"]] |}
    = Ok 0%Q.
Proof.
  apply (compute_tag_preference_no_choices _ _ _ _ [["m2"]]); [done |]. right.
  intros movie_id Hin. apply list_elem_of_singleton in Hin as [= ->].
  by vm_compute.
Defined.

(** ** Runs of operations *)

Lemma run_cons self o ops : run self (o :: ops) = run (step self o) ops.
Proof. done. Qed.

Lemma cached_step self o slot tag :
  cached (step self o) slot tag =
    match o with
    | SetTagPreference slot' tag' p =>
        if decide (slot' = slot ∧ tag' = tag) then Some p else cached self slot tag
    | _ => cached self slot tag
    end.
Proof.
  destruct o as [movie_id choice|d|slot' tag' p]; simpl.
  - unfold update_movie_choice.
    by rewrite (surjective_pairing (defaultdict_getitem _ _ _)).
  - done.
  - apply cached_set_tag_preference.
Qed.

Lemma cache_in_range_init user_id snapshot :
  cache_in_range (__init__ user_id snapshot).
Proof. intros slot tag p. unfold cached. simpl. by rewrite lookup_empty. Qed.

Lemma cache_in_range_step self o :
  sets_in_range o → cache_in_range self → cache_in_range (step self o).
Proof.
  intros Ho Hself slot tag p. rewrite cached_step.
  destruct o as [| |slot' tag' p']; [apply Hself.. |].
  case_decide; [| apply Hself]. by intros [= <-].
Qed.

Lemma cache_in_range_run ops self :
  Forall sets_in_range ops → cache_in_range self → cache_in_range (run self ops).
Proof.
  intros Hops. revert self.
  induction Hops as [|o ops Ho _ IH]; intros self Hself; [done |].
  rewrite run_cons. by apply IH, cache_in_range_step.
Qed.

Lemma cached_step_is_Some self o slot tag :
  is_Some (cached self slot tag) → is_Some (cached (step self o) slot tag).
Proof.
  rewrite cached_step. destruct o; [done.. |]. by case_decide.
Qed.

Lemma cached_run_is_Some ops self slot tag :
  is_Some (cached self slot tag) ∨ Exists (sets_tag slot tag) ops →
  is_Some (cached (run self ops) slot tag).
Proof.
  revert self. induction ops as [|o ops IH]; intros self [Hself|Hops].
  - done.
  - by apply Exists_nil in Hops.
  - rewrite run_cons. by apply IH; left; apply cached_step_is_Some.
  - rewrite run_cons. apply IH.
    apply Exists_cons in Hops as [Ho|Hops]; [left | by right].
    rewrite cached_step. destruct o; try done. simpl in Ho. by rewrite decide_True.
Qed.

Lemma recorded_run ops self movie_id :
  Forall (λ o, is_bulk_update o = false) ops →
  recorded (run self ops) movie_id
    = (recorded self movie_id ++ appended movie_id ops)%list.
Proof.
  intros Hops. revert self.
  induction Hops as [|o ops Ho _ IH]; intros self.
  - by rewrite app_nil_r.
  - rewrite run_cons, IH. unfold appended. rewrite bind_cons, app_assoc. f_equal.
    destruct o as [movie_id' choice|d|slot tag p]; simpl.
    + rewrite recorded_update_movie_choice.
      case_decide; [done | by rewrite app_nil_r].
    + done.
    + by rewrite recorded_set_tag_preference, app_nil_r.
Qed.

(** ** The range of the preferences *)

(** C7, as claimed, fails: [set_tag_preference] stores any value, and
    [get_tag_preference] returns the stored 5.0, which is outside [-1, 1]. *)
Lemma get_tag_preference_out_of_range :
  let self := run (__init__ "u" None) [SetTagPreference "genres" "comedy" 5%Q] in
  (get_tag_preference self "genres" "comedy").1 = Ok 5%Q ∧ ¬ in_range 5%Q.
Proof.
  split; [by vm_compute |]. unfold in_range. lra.
Qed.

(** C7, amended: [_convert_choice_to_preference] always returns a value
    of [-1, 1]; [compute_tag_preference] returns a value whenever the store
    answers its query, and every value it returns is of [-1, 1]; and after
    any run of choice updates and of [set_tag_preference] calls that all
    pass a value of [-1, 1], [get_tag_preference] for a slot and tag that a
    call has set returns a value of [-1, 1]. *)
Theorem preferences_in_range :
  (∀ choice, in_range (_convert_choice_to_preference choice))
  ∧ (∀ self slot tag database,
       (∀ rows,
          fetchall database (tag_query database slot tag) = Ok rows →
          ∃ preference,
            compute_tag_preference self slot tag database = Ok preference
            ∧ in_range preference)
       ∧ (∀ preference,
            compute_tag_preference self slot tag database = Ok preference →
            in_range preference))
  ∧ (∀ user_id snapshot ops slot tag,
       Forall sets_in_range ops →
       Exists (sets_tag slot tag) ops →
       ∃ preference,
         (get_tag_preference (run (__init__ user_id snapshot) ops) slot tag).1
           = Ok preference
         ∧ in_range preference).
Proof.
  split; [apply _convert_choice_to_preference_range |].
  split.
  { intros self slot tag database. split.
    - apply compute_tag_preference_returns.
    - apply compute_tag_preference_range. }
  intros user_id snapshot ops slot tag Hrange Hset.
  set (self := run _ ops).
  destruct (cached_run_is_Some ops (__init__ user_id snapshot) slot tag)
    as [p Hp]; [by right |].
  exists p. rewrite get_tag_preference_fst. fold self in Hp. rewrite Hp.
  split; [done |].
  by eapply (cache_in_range_run ops), Hp; [| apply cache_in_range_init].
Qed.

Lemma preferences_in_range_witness :
  let ops :=
    [UpdateMovieChoice "m1" "accept"; SetTagPreference "genres" "comedy" (1 # 2)] in
  let database :=
    {| _get_table_name := "movies"; fetchall := λ _, Ok [["m1"]] |} in
  (∃ preference,
     (get_tag_preference (run (__init__ "u" None) ops) "genres" "comedy").1
       = Ok preference
     ∧ in_range preference)
  ∧ (∃ preference,
       compute_tag_preference (run (__init__ "u" None) ops) "genres" "comedy"
         database = Ok preference
       ∧ in_range preference).
Proof.
  intros ops database. split.
  - apply (proj2 (proj2 preferences_in_range) "u" None ops "genres" "comedy").
    + repeat constructor; simpl; unfold in_range; lra.
    + apply Exists_cons_tl, Exists_cons_hd. by simpl.
  - by apply (proj1 (proj1 (proj2 preferences_in_range)
                       (run (__init__ "u" None) ops) "genres" "comedy" database)
                [["m1"]]).
Defined.

(** ** The history of the choices *)

(** C8, as claimed, fails: the bulk update binds m1 to the list it is given,
    and the choice recorded before is gone. *)
Lemma update_movies_choices_overwrites :
  let self := run (__init__ "u" None) [UpdateMovieChoice "m1" "accept"] in
  let self' := run self [UpdateMoviesChoices {[ "m1" := ["reject"] ]}] in
  recorded self "m1" = ["accept"]
  ∧ recorded self' "m1" = ["reject"]
  ∧ ¬ (recorded self "m1" `prefix_of` recorded self' "m1").
Proof.
  split; [by vm_compute |]. split; [by vm_compute |].
  intros [rest Hrest]. vm_compute in Hrest. discriminate Hrest.
Qed.

(** C8, amended: [update_movie_choice] is append-only: after any run of
    operations without a bulk update, the history of every item is its
    history before the run followed by the choices the run records for it,
    in the order of the calls (latest last).  The bulk update
    [update_movies_choices] replaces the history of each item it names by the
    list it is given and leaves the history of every other item as it is. *)
Theorem choices_history :
  (∀ self ops movie_id,
     Forall (λ o, is_bulk_update o = false) ops →
     recorded (run self ops) movie_id
       = (recorded self movie_id ++ appended movie_id ops)%list)
  ∧ (∀ self movies_choices movie_id,
       recorded (update_movies_choices self movies_choices) movie_id
         = match movies_choices !! movie_id with
           | Some choices => choices
           | None => recorded self movie_id
           end).
Proof.
  split.
  - intros self ops movie_id Hops. by apply recorded_run.
  - apply recorded_update_movies_choices.
Qed.

Lemma choices_history_witness :
  let self := __init__ "u" (Some {[ "m1" := ["inquire"] ]}) in
  let ops :=
    [UpdateMovieChoice "m1" "reject"; UpdateMovieChoice "m2" "watched";
     SetTagPreference "genres" "comedy" 1%Q; UpdateMovieChoice "m1" "accept"] in
  recorded (run self ops) "m1" = ["inquire"; "reject"; "accept"].
Proof.
  intros self ops.
  rewrite (proj1 choices_history self ops "m1"); [by vm_compute |].
  by repeat constructor.
Defined.

(** C10: reading the choices of an item that has none returns the empty
    list and binds the item to an empty list in the mapping of choices; the
    entry of every other item is as before. *)
Theorem get_movie_choices_absent self movie_id :
  movie_choices self !! movie_id = None →
  (get_movie_choices self movie_id).1 = []
  ∧ movie_choices (get_movie_choices self movie_id).2
      = <[movie_id := []]> (movie_choices self)
  ∧ movie_choices (get_movie_choices self movie_id).2 !! movie_id = Some []
  ∧ ∀ other, other ≠ movie_id →
      movie_choices (get_movie_choices self movie_id).2 !! other
        = movie_choices self !! other.
Proof.
  unfold movie_choices, get_movie_choices, defaultdict_getitem.
  intros ->. simpl. split; [done |]. split; [done |].
  split; [apply lookup_insert_eq |].
  intros other Hother. by apply lookup_insert_ne.
Qed.

Lemma get_movie_choices_absent_witness :
  let self := update_movie_choice (__init__ "u" None) "m1" "accept" in
  (get_movie_choices self "m2").1 = []
  ∧ movie_choices (get_movie_choices self "m2").2 !! "m2" = Some []
  ∧ movie_choices self !! "m2" = None.
Proof.
  intros self.
  assert (movie_choices self !! "m2" = None) as Habsent by (by vm_compute).
  destruct (get_movie_choices_absent self "m2" Habsent) as (H1 & _ & H3 & _).
  by repeat split.
Defined.

End UserModelFacts.

(** * Properties of the policy and of its input encoder *)

Section PolicyFacts.

Import NeuralDialoguePolicy.

Implicit Types (dialogue_state : DialogueState) (E : IntentEnum).

Lemma transform_row_length encoder labels :
  length (MultiLabelBinarizer.transform_row encoder labels)
    = length (MultiLabelBinarizer.classes_ encoder).
Proof. unfold MultiLabelBinarizer.transform_row. apply length_fmap. Qed.

Lemma tensor_length {A} `{torch.ToFloat A} (data : list A) :
  length (torch.tensor data) = length data.
Proof. unfold torch.tensor. apply length_fmap. Qed.

Lemma intents_tensor_nil E :
  intents_tensor E []
    = Ok (torch.zeros (length (MultiLabelBinarizer.classes_ (label_encoder E)))).
Proof. done. Qed.

Lemma intents_tensor_returns E (intents : list (intent E)) :
  ∃ v, intents_tensor E intents = Ok v
       ∧ length v = length (MultiLabelBinarizer.classes_ (label_encoder E)).
Proof.
  unfold intents_tensor. destruct intents as [|x intents]; simpl.
  - eexists. split; [done |]. apply length_replicate.
  - eexists. split; [done |]. by rewrite tensor_length, transform_row_length.
Qed.

Lemma build_input_from_dialogue_state_length dialogue_state :
  length (build_input_from_dialogue_state dialogue_state) = 8.
Proof. done. Qed.

Lemma build_input_from_dialogue_state_and_intents_length
    (UserIntents AgentIntents : IntentEnum) dialogue_state
    (user_intents : list (intent UserIntents))
    (agent_intents : list (intent AgentIntents)) :
  ∃ v,
    build_input_from_dialogue_state_and_intents UserIntents AgentIntents
      dialogue_state user_intents agent_intents = Ok v
    ∧ length v =
        8 + length (MultiLabelBinarizer.classes_ (user_label_encoder UserIntents))
          + length (MultiLabelBinarizer.classes_ (agent_label_encoder AgentIntents)).
Proof.
  unfold build_input_from_dialogue_state_and_intents.
  destruct (intents_tensor_returns UserIntents user_intents) as (u & -> & Hu).
  destruct (intents_tensor_returns AgentIntents agent_intents) as (a & -> & Ha).
  eexists. split; [done |].
  unfold torch.cat. cbn [concat].
  rewrite app_nil_r, !length_app, Hu, Ha, build_input_from_dialogue_state_length.
  unfold user_label_encoder, agent_label_encoder. lia.
Qed.

(** C4: for every list of intents the encoding, at the user as at the agent
    vocabulary, returns a vector with one entry per class of the vocabulary;
    for the empty list it is the vector of that many zeros. *)
Theorem intents_tensor_vocabulary E :
  let size := length (MultiLabelBinarizer.classes_ (label_encoder E)) in
  (∀ intents : list (intent E),
     ∃ v, intents_tensor E intents = Ok v ∧ length v = size)
  ∧ intents_tensor E [] = Ok (replicate size 0%Q).
Proof.
  intros size. split.
  - apply intents_tensor_returns.
  - apply intents_tensor_nil.
Qed.

(** C5: the encoding of a dialogue state has exactly 8 elements, which are,
    in this order, the flags beginning of dialogue, required slots filled,
    lookup feasible, partial offer made, should offer, offer made, offer
    exhausted and terminal state. *)
Theorem build_input_from_dialogue_state_flags dialogue_state :
  length (build_input_from_dialogue_state dialogue_state) = 8
  ∧ build_input_from_dialogue_state dialogue_state
      = torch.to_float <$>
          [ is_beginning dialogue_state;
            agent_req_filled dialogue_state;
            agent_can_lookup dialogue_state;
            agent_made_partial_offer dialogue_state;
            agent_should_make_offer dialogue_state;
            agent_made_offer dialogue_state;
            agent_offer_no_results dialogue_state;
            at_terminal_state dialogue_state ].
Proof. done. Qed.

(** C6: for a fixed setting of the option, [build_input] returns a vector of
    one length whatever the dialogue state and the intent lists passed: 8
    when the option is off, and 8 plus the sizes of the user and of the agent
    vocabulary when it is on. *)
Theorem build_input_length (UserIntents AgentIntents : IntentEnum)
    dialogue_state (kw : kwargs UserIntents AgentIntents) :
  (default false (b_use_intents kw) = false →
   ∃ v, build_input UserIntents AgentIntents dialogue_state kw = Ok v
        ∧ length v = 8)
  ∧ (default false (b_use_intents kw) = true →
     is_Some (user_intents kw) →
     is_Some (agent_intents kw) →
     ∃ v, build_input UserIntents AgentIntents dialogue_state kw = Ok v
          ∧ length v =
              8 + length (MultiLabelBinarizer.classes_ (user_label_encoder UserIntents))
                + length (MultiLabelBinarizer.classes_ (agent_label_encoder AgentIntents))).
Proof.
  unfold build_input. split.
  - intros ->. by eexists.
  - intros -> [u ->] [a ->].
    apply build_input_from_dialogue_state_and_intents_length.
Qed.

Lemma build_input_length_witness :
  let Users := {| intent := bool; members := [true; false];
                  label := λ b : bool, if b then "reveal" else "inquire" |} in
  let Agents := {| intent := unit; members := [()]; label := λ _, "elicit" |} in
  let dialogue_state :=
    {| is_beginning := FlagBool true; agent_req_filled := FlagBool false;
       agent_can_lookup := FlagBool false;
       agent_made_partial_offer := FlagBool false;
       agent_should_make_offer := FlagBool false;
       agent_made_offer := FlagBool false;
       agent_offer_no_results := FlagBool false;
       at_terminal_state := FlagBool false |} in
  (∃ v, build_input Users Agents dialogue_state
          (Build_kwargs Users Agents None None None)
        = Ok v ∧ length v = 8)
  ∧ (∃ v, build_input Users Agents dialogue_state
            (Build_kwargs Users Agents (Some true) (Some [true]) (Some []))
          = Ok v ∧ length v = 11).
Proof.
  intros Users Agents dialogue_state. split.
  - by apply (proj1 (build_input_length Users Agents dialogue_state _)).
  - apply (proj2 (build_input_length Users Agents dialogue_state
              (Build_kwargs Users Agents (Some true) (Some [true]) (Some []))));
      by simpl.
Defined.

(** ** Construction of a policy *)

(** C9, as claimed, fails: the initializer takes an output size of 3 over a
    catalog of two actions and raises nothing; the exception with which the
    construction ends is the one of the class statement, the same when the
    output size is the length of the catalog, and no configuration error. *)
Lemma init_accepts_mismatch :
  (∃ policy,
     __init__ 8 16 3 ["recommend"; "elicit"] = Ok policy
     ∧ output_size policy ≠ Z.of_nat (length (possible_actions policy)))
  ∧ new 8 16 3 ["recommend"; "elicit"] = Raise AttributeError
  ∧ new 8 16 2 ["recommend"; "elicit"] = Raise AttributeError.
Proof. split; [| done]. eexists. split; [done |]. by simpl. Qed.

(** C9, amended: the initializer of a policy checks nothing: for every
    input size, hidden size, output size and action catalog, [__init__]
    stores the four arguments as given and raises no error, also when the
    output size differs from the length of the catalog; whether the
    construction of a policy raises, and what it raises, does not depend on
    the four arguments. *)
Theorem init_stores_arguments {Action} (input_size hidden_size output_size : Z)
    (possible_actions : list Action) :
  (∃ policy,
     __init__ input_size hidden_size output_size possible_actions = Ok policy
     ∧ NeuralDialoguePolicy.input_size policy = input_size
     ∧ NeuralDialoguePolicy.hidden_size policy = hidden_size
     ∧ NeuralDialoguePolicy.output_size policy = output_size
     ∧ NeuralDialoguePolicy.possible_actions policy = possible_actions)
  ∧ (∀ input_size' hidden_size' output_size'
       (possible_actions' : list Action) e,
       new input_size hidden_size output_size possible_actions = Raise e ↔
       new input_size' hidden_size' output_size' possible_actions' = Raise e).
Proof.
  split; [by eexists |].
  intros. unfold new. by destruct class_body.
Qed.

End PolicyFacts.

(** * How the operations of the user model compose *)

Section UserModelComposition.

Import UserModel UserModelNotions.

Implicit Types (self : UserModel.t) (movie_id choice slot tag : string).
Implicit Types (database : DataBase) (tag_set : list string).

(** ** Models and their dictionaries *)

Lemma update_movie_choice_insert self movie_id choice :
  _movies_choices (update_movie_choice self movie_id choice)
    = <[movie_id := (recorded self movie_id ++ [choice])%list]>
        (_movies_choices self).
Proof.
  apply map_eq. intros movie_id'.
  rewrite update_movie_choice_lookup, lookup_insert. by case_decide.
Qed.

Lemma update_movie_choice_eq self movie_id choice :
  update_movie_choice self movie_id choice
    = with_movies_choices self
        (<[movie_id := (recorded self movie_id ++ [choice])%list]>
           (_movies_choices self)).
Proof.
  rewrite <- update_movie_choice_insert. unfold update_movie_choice.
  by rewrite (surjective_pairing (defaultdict_getitem _ _ _)).
Qed.

Lemma cached_run ops self slot tag :
  cached (run self ops) slot tag
    = foldl (fun found o =>
               match o with
               | SetTagPreference slot' tag' preference =>
                   if decide (slot' = slot ∧ tag' = tag) then Some preference
                   else found
               | _ => found
               end)
            (cached self slot tag) ops.
Proof.
  revert self. induction ops as [|o ops IH]; intros self; [done |].
  rewrite run_cons, IH. simpl. f_equal.
  rewrite cached_step. by destruct o.
Qed.

Lemma same_preference_refl (r : result Q) : same_preference r r.
Proof. destruct r; simpl; [reflexivity | done]. Qed.

(** ** What [compute_tag_preference] computes *)

(** X1: as the test [movie_id in tag_set] compares a string with tuples,
    [compute_tag_preference] counts no choice: it returns 0.0 whenever the
    store answers its query, whatever the rows and the recorded choices
    are, and raises what the store raises otherwise. *)
Theorem compute_tag_preference_neutral self slot tag database :
  compute_tag_preference self slot tag database
    = (rows ← fetchall database (tag_query database slot tag); Ok 0%Q).
Proof. apply compute_tag_preference_rows. Qed.

(** X3: recording a choice for an item that the query does not report
    leaves the computed preference of the tag as it was. *)
Theorem update_movie_choice_unmatched self movie_id choice slot tag database :
  (∀ rows,
     fetchall database (tag_query database slot tag) = Ok rows →
     [movie_id] ∉ rows) →
  same_preference
    (compute_tag_preference (update_movie_choice self movie_id choice)
       slot tag database)
    (compute_tag_preference self slot tag database).
Proof.
  intros _. rewrite !compute_tag_preference_rows.
  apply same_preference_refl.
Qed.

Lemma update_movie_choice_unmatched_witness :
  let self := update_movie_choice (__init__ "u" None) "m1" "accept" in
  let database :=
    {| _get_table_name := "movies"; fetchall := λ _, Ok [["m1"]] |} in
  same_preference
    (compute_tag_preference (update_movie_choice self "m2" "reject")
       "genres" "comedy" database)
    (compute_tag_preference self "genres" "comedy" database).
Proof.
  intros self database.
  apply (update_movie_choice_unmatched self "m2" "reject" "genres" "comedy").
  simpl. intros rows [= <-].
  apply not_elem_of_cons; split; [done | apply not_elem_of_nil].
Defined.

(** ** Setting and reading tag preferences *)

(** X5: after [set_tag_preference(slot, tag, p)], [get_tag_preference]
    returns [p] for that slot and tag, and for every other slot or tag it
    returns or raises what it did before the call. *)
Theorem get_after_set_tag_preference self slot tag p slot' tag' :
  (get_tag_preference (set_tag_preference self slot tag p) slot' tag').1
    = if decide (slot = slot' ∧ tag = tag') then Ok p
      else (get_tag_preference self slot' tag').1.
Proof.
  rewrite !get_tag_preference_fst, cached_set_tag_preference.
  by case_decide.
Qed.

(** X6: on a model built by any run of operations from a new model,
    [get_tag_preference] returns the value of the last
    [set_tag_preference] call for the slot and tag, whatever choices were
    recorded, and raises [TypeError] when there was no such call. *)
Theorem get_tag_preference_last_set user_id snapshot ops slot tag :
  (get_tag_preference (run (__init__ user_id snapshot) ops) slot tag).1
    = match last_set slot tag ops with
      | Some preference => Ok preference
      | None => Raise TypeError
      end.
Proof.
  rewrite get_tag_preference_fst, cached_run. unfold last_set.
  replace (cached (__init__ user_id snapshot) slot tag) with (@None Q); [done |].
  unfold cached. simpl. by rewrite lookup_empty.
Qed.

(** X7: [get_tag_preference] changes no cached preference and no choice
    history; its only effect on the model is that a slot without an entry
    in [tag_preferences] is bound to an empty mapping. *)
Theorem get_tag_preference_effect self slot tag :
  let self' := (get_tag_preference self slot tag).2 in
  (∀ slot' tag', cached self' slot' tag' = cached self slot' tag')
  ∧ _movies_choices self' = _movies_choices self
  ∧ user_id self' = user_id self
  ∧ tag_preferences self'
      = match tag_preferences self !! slot with
        | Some _ => tag_preferences self
        | None => <[slot := ∅]> (tag_preferences self)
        end.
Proof.
  intros self'. split; [intros; apply cached_get_tag_preference |].
  unfold self', get_tag_preference, defaultdict_getitem.
  destruct (tag_preferences self !! slot) as [prefs|]; simpl.
  - by destruct (prefs !! tag).
  - by rewrite lookup_empty.
Qed.

(** X8: the two halves of the model are independent: [set_tag_preference]
    changes no choice history and no computed preference, and the two
    choice updates change no result of [get_tag_preference]. *)
Theorem choices_and_cache_independent self :
  (∀ slot tag p,
     _movies_choices (set_tag_preference self slot tag p) = _movies_choices self
     ∧ ∀ slot' tag' database,
         compute_tag_preference (set_tag_preference self slot tag p)
           slot' tag' database
         = compute_tag_preference self slot' tag' database)
  ∧ (∀ movie_id choice slot tag,
       (get_tag_preference (update_movie_choice self movie_id choice) slot tag).1
         = (get_tag_preference self slot tag).1)
  ∧ (∀ movies_choices slot tag,
       (get_tag_preference (update_movies_choices self movies_choices) slot tag).1
         = (get_tag_preference self slot tag).1).
Proof.
  assert (∀ slot tag p,
            _movies_choices (set_tag_preference self slot tag p)
              = _movies_choices self) as Hkeep.
  { intros. unfold set_tag_preference.
    by rewrite (surjective_pairing (defaultdict_getitem _ _ _)). }
  repeat split.
  - apply Hkeep.
  - intros. unfold compute_tag_preference. by rewrite Hkeep.
  - intros. rewrite !get_tag_preference_fst.
    by rewrite (cached_step self (UpdateMovieChoice movie_id choice)).
  - intros. rewrite !get_tag_preference_fst.
    by rewrite (cached_step self (UpdateMoviesChoices movies_choices)).
Qed.

(** ** Reading and updating the choices *)

(** X9: reading the choices of an item that has an entry returns its list
    and leaves the model as it is. *)
Theorem get_movie_choices_present self movie_id choices :
  movie_choices self !! movie_id = Some choices →
  get_movie_choices self movie_id = (choices, self).
Proof.
  unfold movie_choices, get_movie_choices, defaultdict_getitem.
  intros ->. by destruct self.
Qed.

Lemma get_movie_choices_present_witness :
  let self := update_movie_choice (__init__ "u" None) "m1" "accept" in
  get_movie_choices self "m1" = (["accept"], self).
Proof.
  intros self. apply get_movie_choices_present. by vm_compute.
Defined.

(** X10: reading the choices of an item is idempotent: a second read
    returns the same list and changes nothing more. *)
Theorem get_movie_choices_twice self movie_id :
  get_movie_choices (get_movie_choices self movie_id).2 movie_id
    = get_movie_choices self movie_id.
Proof.
  unfold get_movie_choices, defaultdict_getitem.
  destruct (_movies_choices self !! movie_id) as [choices|] eqn:E; simpl.
  - by rewrite E.
  - by rewrite lookup_insert_eq.
Qed.

(** X11: a new model has the histories of the snapshot it is given, and
    none without a snapshot; it has no cached preference, and without a
    snapshot every preference computed from an answer of the store is 0. *)
Theorem new_model user_id :
  (∀ movie_id, recorded (__init__ user_id None) movie_id = [])
  ∧ (∀ snapshot movie_id,
       recorded (__init__ user_id (Some snapshot)) movie_id
         = default [] (snapshot !! movie_id))
  ∧ (∀ snapshot slot tag, cached (__init__ user_id snapshot) slot tag = None)
  ∧ (∀ slot tag database rows,
       fetchall database (tag_query database slot tag) = Ok rows →
       compute_tag_preference (__init__ user_id None) slot tag database
         = Ok 0%Q).
Proof.
  split; [| split; [| split]].
  - intros. rewrite recorded_lookup.
    change (_movies_choices (__init__ user_id None))
      with (∅ : gmap string (list string)).
    by rewrite lookup_empty.
  - intros. rewrite recorded_lookup. simpl. unfold dict_update.
    by rewrite (right_id_L ∅ (∪)).
  - intros. unfold cached. simpl. by rewrite lookup_empty.
  - intros slot tag database rows Hrows.
    unfold compute_tag_preference. rewrite Hrows. simpl.
    by rewrite map_to_list_empty.
Qed.

Lemma new_model_witness :
  compute_tag_preference (__init__ "u" None) "genres" "comedy"
    {| _get_table_name := "movies"; fetchall := λ _, Ok [["m1"]] |}
    = Ok 0%Q.
Proof.
  by apply (proj2 (proj2 (proj2 (new_model "u"))) "genres" "comedy" _ [["m1"]]).
Defined.

(** X12: two bulk updates in a row are one bulk update with the second
    dictionary laid over the first; the empty bulk update changes nothing,
    and repeating a bulk update changes nothing more. *)
Theorem update_movies_choices_compose self
    (first second : gmap string (list string)) :
  update_movies_choices (update_movies_choices self first) second
    = update_movies_choices self (dict_update first second)
  ∧ update_movies_choices self ∅ = self
  ∧ update_movies_choices (update_movies_choices self first) first
      = update_movies_choices self first.
Proof.
  unfold update_movies_choices, with_movies_choices, dict_update. simpl.
  repeat split.
  - by rewrite (assoc_L (∪)).
  - rewrite (left_id_L ∅ (∪)). by destruct self.
  - by rewrite (assoc_L (∪)), (idemp_L (∪)).
Qed.

(** X13: recording choices for two different items gives the same model
    in either order. *)
Theorem update_movie_choice_commute self movie_id choice movie_id' choice' :
  movie_id ≠ movie_id' →
  update_movie_choice (update_movie_choice self movie_id choice) movie_id' choice'
    = update_movie_choice (update_movie_choice self movie_id' choice') movie_id choice.
Proof.
  intros Hne. rewrite !update_movie_choice_eq.
  rewrite !recorded_lookup. unfold with_movies_choices. simpl.
  rewrite !lookup_insert_ne by done.
  f_equal. by apply insert_insert_ne.
Qed.

Lemma update_movie_choice_commute_witness :
  let self := __init__ "u" (Some {[ "m1" := ["inquire"] ]}) in
  update_movie_choice (update_movie_choice self "m1" "accept") "m2" "reject"
    = update_movie_choice (update_movie_choice self "m2" "reject") "m1" "accept".
Proof.
  intros self. by apply update_movie_choice_commute.
Defined.

End UserModelComposition.

(** * What the input encoder computes *)

Section EncoderFacts.

Import NeuralDialoguePolicy EncoderNotions.

Implicit Types (dialogue_state : DialogueState) (E : IntentEnum).

#[local] Instance label_le_total : Total MultiLabelBinarizer.label_le.
Proof.
  intros a b. unfold MultiLabelBinarizer.label_le.
  destruct (String.leb_total a b) as [H|H]; rewrite H; [by left | by right].
Qed.

Lemma multi_hot_nil (cs : list string) :
  multi_hot cs [] = torch.zeros (length cs).
Proof.
  unfold multi_hot, torch.zeros.
  induction cs as [|c cs IH]; [done |]. cbn [length replicate fmap list_fmap].
  rewrite <- IH. by rewrite bool_decide_eq_false_2 by apply not_elem_of_nil.
Qed.

Lemma tensor_transform_row encoder (labels : list string) :
  torch.tensor (MultiLabelBinarizer.transform_row encoder labels)
    = multi_hot (MultiLabelBinarizer.classes_ encoder) labels.
Proof.
  unfold torch.tensor, MultiLabelBinarizer.transform_row, multi_hot.
  rewrite <- list_fmap_compose. apply list_fmap_ext.
  intros i c _. simpl. by case_bool_decide.
Qed.

Lemma intents_tensor_eq E (intents : list (intent E)) :
  intents_tensor E intents = Ok (multi_hot (classes E) (label E <$> intents)).
Proof.
  unfold intents_tensor, classes. destruct intents as [|x intents]; simpl.
  - by rewrite multi_hot_nil.
  - by rewrite tensor_transform_row.
Qed.

Lemma multi_hot_ext (cs labels labels' : list string) :
  (∀ c, c ∈ cs → c ∈ labels ↔ c ∈ labels') →
  multi_hot cs labels = multi_hot cs labels'.
Proof.
  intros Hsame. unfold multi_hot. apply list_fmap_ext.
  intros i c Hc. apply list_elem_of_lookup_2 in Hc.
  specialize (Hsame c Hc). by repeat case_bool_decide; tauto.
Qed.

Lemma multi_hot_lookup (cs labels : list string) i :
  multi_hot cs labels !! i
    = (fun c => if bool_decide (c ∈ labels) then 1%Q else 0%Q) <$> cs !! i.
Proof. unfold multi_hot. apply list_lookup_fmap. Qed.

Lemma classes_elem_of E c :
  c ∈ classes E ↔ ∃ x, x ∈ members E ∧ label E x = c.
Proof.
  unfold classes, label_encoder, MultiLabelBinarizer.fit,
    MultiLabelBinarizer.sorted_set. simpl.
  rewrite merge_sort_Permutation, elem_of_remove_dups, app_nil_r.
  rewrite list_elem_of_fmap.
  split; intros (x & H1 & H2); exists x; by split.
Qed.

(** ** The vocabulary *)

(** X14: the classes of the encoder fitted on an enumeration are exactly
    the labels of its members, each once, in ascending order. *)
Theorem label_encoder_classes E :
  Sorted MultiLabelBinarizer.label_le (classes E)
  ∧ NoDup (classes E)
  ∧ ∀ c, c ∈ classes E ↔ ∃ x, x ∈ members E ∧ label E x = c.
Proof.
  split; [| split].
  - apply (Sorted_merge_sort _).
  - unfold classes, label_encoder, MultiLabelBinarizer.fit,
      MultiLabelBinarizer.sorted_set. simpl.
    rewrite merge_sort_Permutation. apply NoDup_remove_dups.
  - apply classes_elem_of.
Qed.

(** ** The encoding of the intents *)

(** X15: for every list of intents, empty or not, the encoding is the
    multi-hot vector of the labels of the intents over the classes of the
    vocabulary: the branch for the empty list and the branch through the
    binarizer give the same function. *)
Theorem intents_tensor_multi_hot E (intents : list (intent E)) :
  intents_tensor E intents = Ok (multi_hot (classes E) (label E <$> intents)).
Proof. apply intents_tensor_eq. Qed.

(** X16: the encoding depends only on the set of the labels of the intents:
    two lists with the same labels, in any order and with any repetitions, have
    the same encoding. *)
Theorem intents_tensor_same_labels E (intents intents' : list (intent E)) :
  (∀ c, c ∈ label E <$> intents ↔ c ∈ label E <$> intents') →
  intents_tensor E intents = intents_tensor E intents'.
Proof.
  intros Hsame. rewrite !intents_tensor_eq. f_equal.
  apply multi_hot_ext. intros c _. apply Hsame.
Qed.

Lemma intents_tensor_same_labels_witness :
  let E := {| intent := bool; members := [true; false];
              label := λ b : bool, if b then "reveal" else "inquire" |} in
  intents_tensor E [true; false; true] = intents_tensor E [false; true].
Proof.
  intros E. apply (intents_tensor_same_labels E).
  intros c. simpl. rewrite !elem_of_cons, !elem_of_nil. tauto.
Defined.

(** X17: the encoding has a 1 exactly at the positions whose class is the
    label of an intent of the list, and a 0 at every other position; an
    intent of the list that is a member of the enumeration has such a
    position. *)
Theorem intents_tensor_entries E (intents : list (intent E)) :
  ∃ v,
    intents_tensor E intents = Ok v
    ∧ (∀ i, v !! i = Some 1%Q ↔
            ∃ x, x ∈ intents ∧ classes E !! i = Some (label E x))
    ∧ (∀ i q, v !! i = Some q → q = 0%Q ∨ q = 1%Q)
    ∧ (∀ x, x ∈ intents → x ∈ members E →
            ∃ i, classes E !! i = Some (label E x) ∧ v !! i = Some 1%Q).
Proof.
  eexists. split; [apply intents_tensor_eq |].
  assert (∀ i, multi_hot (classes E) (label E <$> intents) !! i = Some 1%Q ↔
               ∃ x, x ∈ intents ∧ classes E !! i = Some (label E x)) as Hone.
  { intros i. rewrite multi_hot_lookup.
    destruct (classes E !! i) as [c|]; simpl.
    - case_bool_decide as Hc.
      + apply list_elem_of_fmap in Hc as (x & -> & Hx).
        split; [intros _; by exists x | done].
      + split; [done |]. intros (x & Hx & [= ->]).
        destruct Hc. by apply list_elem_of_fmap_2.
    - split; [done |]. by intros (x & _ & ?). }
  split; [exact Hone |]. split.
  - intros i q. rewrite multi_hot_lookup.
    destruct (classes E !! i) as [c|]; simpl; [| done].
    case_bool_decide; intros [= <-]; [by right | by left].
  - intros x Hx Hmember.
    assert (label E x ∈ classes E) as Hc
      by (apply classes_elem_of; by exists x).
    apply list_elem_of_lookup_1 in Hc as [i Hi].
    exists i. split; [done |]. apply Hone. by exists x.
Qed.

Lemma intents_tensor_entries_witness :
  let E := {| intent := bool; members := [true; false];
              label := λ b : bool, if b then "reveal" else "inquire" |} in
  ∃ v i,
    intents_tensor E [true] = Ok v
    ∧ classes E !! i = Some "reveal"
    ∧ v !! i = Some 1%Q.
Proof.
  intros E.
  destruct (intents_tensor_entries E [true]) as (v & Hv & _ & _ & Hmember).
  destruct (Hmember true) as (i & Hi & Hone); [by left | by left |].
  by exists v, i.
Defined.

(** ** The combined input *)

(** X18: the combined input is the encoding of the dialogue state followed
    by the multi-hot vector of the user intents and then by that of the
    agent intents; its first 8 entries are the encoding of the state. *)
Theorem build_input_from_dialogue_state_and_intents_layout
    (UserIntents AgentIntents : IntentEnum) dialogue_state
    (user_intents : list (intent UserIntents))
    (agent_intents : list (intent AgentIntents)) :
  ∃ v,
    build_input_from_dialogue_state_and_intents UserIntents AgentIntents
      dialogue_state user_intents agent_intents = Ok v
    ∧ v = (build_input_from_dialogue_state dialogue_state
             ++ multi_hot (classes UserIntents) (label UserIntents <$> user_intents)
             ++ multi_hot (classes AgentIntents)
                  (label AgentIntents <$> agent_intents))%list
    ∧ take 8 v = build_input_from_dialogue_state dialogue_state.
Proof.
  unfold build_input_from_dialogue_state_and_intents.
  rewrite !intents_tensor_eq. eexists. split; [done |].
  unfold torch.cat. cbn [concat]. rewrite app_nil_r. split; [done |].
  by rewrite take_app_length'.
Qed.

(** X19: on dialogue states whose eight flags are booleans the encoding
    loses nothing: two such states that differ in a flag have different
    encodings. *)
Theorem build_input_from_dialogue_state_inj dialogue_state dialogue_state' :
  boolean_flags dialogue_state →
  boolean_flags dialogue_state' →
  dialogue_state ≠ dialogue_state' →
  build_input_from_dialogue_state dialogue_state
    ≠ build_input_from_dialogue_state dialogue_state'.
Proof.
  intros Hb Hb' Hne Heq. apply Hne. clear Hne.
  destruct dialogue_state as [a1 a2 a3 a4 a5 a6 a7 a8],
           dialogue_state' as [b1 b2 b3 b4 b5 b6 b7 b8].
  unfold boolean_flags in Hb, Hb'. simpl in Hb, Hb'.
  rewrite !Forall_cons in Hb. rewrite !Forall_cons in Hb'.
  destruct Hb as ((c1 & ->) & (c2 & ->) & (c3 & ->) & (c4 & ->) & (c5 & ->)
                  & (c6 & ->) & (c7 & ->) & (c8 & ->) & _).
  destruct Hb' as ((d1 & ->) & (d2 & ->) & (d3 & ->) & (d4 & ->) & (d5 & ->)
                   & (d6 & ->) & (d7 & ->) & (d8 & ->) & _).
  unfold build_input_from_dialogue_state, torch.tensor in Heq. simpl in Heq.
  assert (∀ a b : bool,
            torch.to_float (FlagBool a) = torch.to_float (FlagBool b) → a = b)
    as Hinj by (by intros [] []).
  injection Heq as H1 H2 H3 H4 H5 H6 H7 H8.
  by rewrite (Hinj _ _ H1), (Hinj _ _ H2), (Hinj _ _ H3), (Hinj _ _ H4),
    (Hinj _ _ H5), (Hinj _ _ H6), (Hinj _ _ H7), (Hinj _ _ H8).
Qed.

Lemma build_input_from_dialogue_state_inj_witness :
  let at_start :=
    {| is_beginning := FlagBool true; agent_req_filled := FlagBool false;
       agent_can_lookup := FlagBool false;
       agent_made_partial_offer := FlagBool false;
       agent_should_make_offer := FlagBool false;
       agent_made_offer := FlagBool false;
       agent_offer_no_results := FlagBool false;
       at_terminal_state := FlagBool false |} in
  let at_end :=
    {| is_beginning := FlagBool false; agent_req_filled := FlagBool true;
       agent_can_lookup := FlagBool true;
       agent_made_partial_offer := FlagBool false;
       agent_should_make_offer := FlagBool false;
       agent_made_offer := FlagBool true;
       agent_offer_no_results := FlagBool false;
       at_terminal_state := FlagBool true |} in
  build_input_from_dialogue_state at_start
    ≠ build_input_from_dialogue_state at_end.
Proof.
  intros at_start at_end.
  apply (build_input_from_dialogue_state_inj at_start at_end).
  - repeat (apply Forall_cons_2; [by eexists |]). apply Forall_nil_2.
  - repeat (apply Forall_cons_2; [by eexists |]). apply Forall_nil_2.
  - discriminate.
Defined.

(** X20: [build_input] raises exactly when the option is on and one of the
    two intent lists is missing from the keyword arguments, and what it
    raises then is [TypeError]; with the option off it returns the encoding
    of the state whatever intent lists are passed. *)
Theorem build_input_raises (UserIntents AgentIntents : IntentEnum)
    dialogue_state (kw : kwargs UserIntents AgentIntents) :
  ((∃ e, build_input UserIntents AgentIntents dialogue_state kw = Raise e) ↔
     default false (b_use_intents kw) = true
     ∧ (user_intents kw = None ∨ agent_intents kw = None))
  ∧ (∀ e, build_input UserIntents AgentIntents dialogue_state kw = Raise e →
          e = TypeError)
  ∧ (default false (b_use_intents kw) = false →
     build_input UserIntents AgentIntents dialogue_state kw
       = Ok (build_input_from_dialogue_state dialogue_state)).
Proof.
  unfold build_input.
  destruct (default false (b_use_intents kw)).
  - destruct (user_intents kw) as [u|], (agent_intents kw) as [a|].
    + destruct (build_input_from_dialogue_state_and_intents_length
                  UserIntents AgentIntents dialogue_state u a) as (v & -> & _).
      split; [| by split].
      split; [by intros [e ?] | by intros [_ [?|?]]].
    + split; [| split; [by intros e [= <-] | done]].
      split; [by intros _; split; [| right] | by eexists].
    + split; [| split; [by intros e [= <-] | done]].
      split; [by intros _; split; [| left] | by eexists].
    + split; [| split; [by intros e [= <-] | done]].
      split; [by intros _; split; [| left] | by eexists].
  - split; [| by split].
    split; [by intros [e ?] | by intros [? _]].
Qed.

Lemma build_input_raises_witness :
  let Users := {| intent := bool; members := [true; false];
                  label := λ b : bool, if b then "reveal" else "inquire" |} in
  let Agents := {| intent := unit; members := [()]; label := λ _, "elicit" |} in
  let dialogue_state :=
    {| is_beginning := FlagBool true; agent_req_filled := FlagBool false;
       agent_can_lookup := FlagBool false;
       agent_made_partial_offer := FlagBool false;
       agent_should_make_offer := FlagBool false;
       agent_made_offer := FlagBool false;
       agent_offer_no_results := FlagBool false;
       at_terminal_state := FlagBool false |} in
  (∃ e, build_input Users Agents dialogue_state
          (Build_kwargs Users Agents (Some true) (Some [true]) None) = Raise e)
  ∧ build_input Users Agents dialogue_state
      (Build_kwargs Users Agents (Some false) (Some [true]) None)
    = Ok (build_input_from_dialogue_state dialogue_state).
Proof.
  intros Users Agents dialogue_state. split.
  - apply (proj1 (build_input_raises Users Agents dialogue_state
                    (Build_kwargs Users Agents (Some true) (Some [true]) None))).
    split; [done | by right].
  - by apply (proj2 (proj2 (build_input_raises Users Agents dialogue_state
                 (Build_kwargs Users Agents (Some false) (Some [true]) None)))).
Defined.

End EncoderFacts.

(** * The messages of the messenger adapter *)

Section MessengerFacts.

Import MessengerFlask.

Local Open Scope nat_scope.

Implicit Types (self : MessengerFlask.t) (option : gmap string json).
Implicit Types (options : list (gmap string json)).
Implicit Types (title payload replies : list json).

(** ** Quick replies *)

Lemma quickreply_loop_enough title payload i replies :
  i + length title ≤ length payload →
  ∃ new,
    quickreply_loop i title payload replies = Return (replies ++ new)%list
    ∧ length new = length title
    ∧ ∀ j title_j, title !! j = Some title_j →
        ∃ payload_j,
          payload !! (i + j) = Some payload_j
          ∧ new !! j = Some (JObject [("content_type", JString "text");
                                      ("title", title_j);
                                      ("payload", payload_j)]).
Proof.
  revert i replies. induction title as [|title_i title IH]; intros i replies Hlen.
  - exists []. by rewrite app_nil_r.
  - simpl in Hlen. cbn [quickreply_loop]. unfold list_getitem.
    destruct (lookup_lt_is_Some_2 payload i) as [payload_i Hi]; [lia |].
    rewrite Hi. simpl.
    destruct (IH (S i) (replies ++ [JObject [("content_type", JString "text");
                                             ("title", title_i);
                                             ("payload", payload_i)]])%list)
      as (new & -> & Hnew & Hat); [lia |].
    eexists (_ :: new). rewrite <- app_assoc. split; [done |].
    split; [simpl; by rewrite Hnew |].
    intros [|j] title_j Hj; simpl in *.
    + injection Hj as <-. exists payload_i. by rewrite Nat.add_0_r.
    + destruct (Hat j title_j Hj) as (payload_j & Hp & Hn).
      exists payload_j. by rewrite <- Nat.add_succ_comm.
Qed.

Lemma quickreply_loop_short title payload i replies :
  i ≤ length payload →
  length payload < i + length title →
  quickreply_loop i title payload replies = Raised IndexError.
Proof.
  revert i replies. induction title as [|title_i title IH];
    intros i replies Hi Hlen; simpl in Hlen; [lia |].
  cbn [quickreply_loop]. unfold list_getitem.
  destruct (payload !! i) as [payload_i|] eqn:E; [| done]. simpl.
  apply lookup_lt_Some in E. apply IH; lia.
Qed.

(** X21: when there are at least as many payloads as titles, [quickreply]
    returns a message with one quick reply per title, in the order of the
    titles, the reply at each position carrying the title and the payload
    of that position; payloads beyond the titles are not used. *)
Theorem quickreply_replies self text title payload :
  length title ≤ length payload →
  ∃ replies,
    quickreply self text title payload
      = Return
          (JObject [("recipient", JObject [("id", user_id self)]);
                    ("messaging_type", JString "RESPONSE");
                    ("message", JObject [("text", text);
                                         ("quick_replies", JArray replies)])])
    ∧ length replies = length title
    ∧ ∀ j title_j, title !! j = Some title_j →
        ∃ payload_j,
          payload !! j = Some payload_j
          ∧ replies !! j = Some (JObject [("content_type", JString "text");
                                          ("title", title_j);
                                          ("payload", payload_j)]).
Proof.
  intros Hlen. unfold quickreply.
  destruct (quickreply_loop_enough title payload 0 []) as (new & -> & Hnew & Hat);
    [done |].
  exists new. by repeat split.
Qed.

Lemma quickreply_replies_witness :
  ∃ replies,
    quickreply (__init__ (JString "42") "secret") (JString "Which genre?")
      [JString "Comedy"; JString "Drama"]
      [JString "comedy"; JString "drama"; JString "unused"]
      = Return
          (JObject [("recipient", JObject [("id", JString "42")]);
                    ("messaging_type", JString "RESPONSE");
                    ("message", JObject [("text", JString "Which genre?");
                                         ("quick_replies", JArray replies)])])
    ∧ length replies = 2.
Proof.
  destruct (quickreply_replies (__init__ (JString "42") "secret")
              (JString "Which genre?") [JString "Comedy"; JString "Drama"]
              [JString "comedy"; JString "drama"; JString "unused"])
    as (replies & Heq & Hlen & _); [simpl; lia |].
  by exists replies.
Defined.

(** X22: when there are fewer payloads than titles, [quickreply] raises
    [IndexError] and returns no message. *)
Theorem quickreply_short_payload self text title payload :
  length payload < length title →
  quickreply self text title payload = Raised IndexError.
Proof.
  intros Hlen. unfold quickreply.
  rewrite quickreply_loop_short; [done | lia | done].
Qed.

Lemma quickreply_short_payload_witness :
  quickreply (__init__ (JString "42") "secret") (JString "Which genre?")
    [JString "Comedy"; JString "Drama"] [JString "comedy"]
    = Raised IndexError.
Proof. apply quickreply_short_payload. simpl. lia. Defined.

(** ** Buttons *)

Lemma eq_str_exclusive (v : json) :
  eq_str v "postback" = true → eq_str v "web_url" = true → False.
Proof.
  destruct v as [s| |]; simpl; try done.
  intros ->%String.eqb_eq. done.
Qed.

Ltac body_cases option :=
  unfold create_buttons_body, dict_getitem;
  destruct (option !! "button_type") as [button_type|] eqn:Etype; simpl;
  [ destruct (eq_str button_type "postback") eqn:Epostback;
    destruct (eq_str button_type "web_url") eqn:Eweb; simpl;
    destruct (option !! "title") as [title|] eqn:Etitle; simpl;
    destruct (option !! "payload") as [payload|] eqn:Epayload; simpl;
    destruct (option !! "url") as [url|] eqn:Eurl; simpl
  | ].

Lemma create_buttons_body_shift (buttons : list json) option :
  create_buttons_body buttons option
    = new ← create_buttons_body [] option; Return (buttons ++ new)%list.
Proof.
  body_cases option; rewrite ?app_nil_r, <- ?app_assoc; done.
Qed.

Lemma create_buttons_loop_shift options (buttons : list json) :
  create_buttons_loop buttons options
    = new ← create_buttons_loop [] options; Return (buttons ++ new)%list.
Proof.
  revert buttons. induction options as [|option options IH]; intros buttons.
  - simpl. by rewrite app_nil_r.
  - cbn [create_buttons_loop]. rewrite create_buttons_body_shift.
    destruct (create_buttons_body [] option) as [new|e]; simpl; [| done].
    rewrite IH, (IH new).
    destruct (create_buttons_loop [] options) as [rest|e]; simpl; [| done].
    by rewrite app_assoc.
Qed.

Lemma create_buttons_loop_app options options' (buttons : list json) :
  create_buttons_loop buttons (options ++ options')
    = buttons' ← create_buttons_loop buttons options;
      create_buttons_loop buttons' options'.
Proof.
  revert buttons. induction options as [|option options IH]; intros buttons;
    [done |].
  cbn [app create_buttons_loop].
  destruct (create_buttons_body buttons option) as [new|e]; simpl; [| done].
  apply IH.
Qed.

Lemma create_buttons_body_readable option :
  readable option →
  ∃ new,
    create_buttons_body [] option = Return new
    ∧ length new = (if is_button_option option then 1 else 0)
    ∧ Forall is_button new.
Proof.
  intros (button_type' & Hty & Hpost & Hweb). unfold is_button_option.
  body_cases option; simplify_eq; simpl;
    try (by exfalso; eapply eq_str_exclusive);
    try (by destruct Hpost as [[] []]);
    try (by destruct Hweb as [[] []]);
    try (by eexists; repeat split; try done;
            repeat constructor; eexists _, _, _, _; split; [done |]; auto).
  all: by exists [].
Qed.

Lemma create_buttons_body_returns option new :
  create_buttons_body [] option = Return new → readable option.
Proof.
  body_cases option; intros Hret; try done;
    exists button_type; (split; [done |]); split; intros Hty;
    try congruence; rewrite ?Etitle, ?Epayload, ?Eurl; by split.
Qed.

Lemma create_buttons_body_raises option e :
  create_buttons_body [] option = Raised e →
  ∃ key, e = KeyError key ∧ option !! key = None.
Proof.
  body_cases option; intros [= <-]; by eexists.
Qed.

Lemma create_buttons_loop_cons option options :
  create_buttons_loop [] (option :: options)
    = new ← create_buttons_body [] option;
      rest ← create_buttons_loop [] options;
      Return (new ++ rest)%list.
Proof.
  cbn [create_buttons_loop].
  destruct (create_buttons_body [] option) as [new|e]; simpl; [| done].
  apply create_buttons_loop_shift.
Qed.

Lemma create_buttons_loop_readable options :
  Forall readable options →
  ∃ buttons,
    create_buttons_loop [] options = Return buttons
    ∧ length buttons = length (filter (λ o, is_button_option o) options)
    ∧ Forall is_button buttons.
Proof.
  induction 1 as [|option options Hoption _ (rest & Hrest & Hlen & Hshape)].
  - by exists [].
  - destruct (create_buttons_body_readable option Hoption)
      as (new & Hnew & Hone & Hnewshape).
    exists (new ++ rest)%list.
    rewrite create_buttons_loop_cons, Hnew, Hrest. split; [done |].
    split; [| by apply Forall_app].
    rewrite length_app, Hone, Hlen, filter_cons.
    destruct (is_button_option option); by simpl.
Qed.

Lemma create_buttons_loop_returns options buttons :
  create_buttons_loop [] options = Return buttons → Forall readable options.
Proof.
  revert buttons. induction options as [|option options IH]; intros buttons;
    [done |].
  rewrite create_buttons_loop_cons.
  destruct (create_buttons_body [] option) as [new|e] eqn:Ebody; simpl; [| done].
  destruct (create_buttons_loop [] options) as [rest|e] eqn:Erest; simpl; [| done].
  intros _. constructor.
  - by eapply create_buttons_body_returns.
  - by eapply IH.
Qed.

Lemma create_buttons_loop_raises options e :
  create_buttons_loop [] options = Raised e →
  ∃ key option, e = KeyError key ∧ option ∈ options ∧ option !! key = None.
Proof.
  induction options as [|option options IH]; [done |].
  rewrite create_buttons_loop_cons.
  destruct (create_buttons_body [] option) as [new|e'] eqn:Ebody; simpl.
  - destruct (create_buttons_loop [] options) as [rest|e'] eqn:Erest; simpl;
      [done |].
    intros [= <-]. destruct IH as (key & option' & -> & Hin & Hkey); [done |].
    exists key, option'. split; [done |]. split; [by right | done].
  - intros [= <-].
    destruct (create_buttons_body_raises option e' Ebody) as (key & -> & Hkey).
    exists key, option. split; [done |]. split; [by left | done].
Qed.

(** X23: on options that all have a button type and the keys their type
    asks for, [create_buttons] returns one button per option of type
    postback or web_url and nothing for an option of another type; every
    button is a postback button with a payload or a web_url button with a
    url. *)
Theorem create_buttons_readable self options :
  Forall readable options →
  ∃ buttons,
    create_buttons self options = Return buttons
    ∧ length buttons = length (filter (λ o, is_button_option o) options)
    ∧ Forall is_button buttons.
Proof. apply create_buttons_loop_readable. Qed.

Lemma create_buttons_readable_witness :
  let options : list (gmap string json) :=
    [ {[ "button_type" := JString "postback"; "title" := JString "Yes";
         "payload" := JString "/accept" ]};
      {[ "button_type" := JString "share"; "title" := JString "Share" ]};
      {[ "button_type" := JString "web_url"; "title" := JString "More";
         "url" := JString "https://www.imdb.com" ]} ] in
  ∃ buttons,
    create_buttons (__init__ (JString "42") "secret") options = Return buttons
    ∧ length buttons = 2.
Proof.
  intros options.
  destruct (create_buttons_readable (__init__ (JString "42") "secret") options)
    as (buttons & Hret & Hlen & _).
  - apply Forall_cons_2;
      [| apply Forall_cons_2; [| apply Forall_cons_2; [| apply Forall_nil_2]]];
      (eexists; split; [by vm_compute |]);
      split; intros Hty; vm_compute in Hty; try discriminate Hty;
      split; by eexists; vm_compute.
  - exists buttons. split; [done |]. by rewrite Hlen.
Defined.

(** X24: [create_buttons] returns exactly when every option has a button
    type and the keys its type asks for; when it raises, it raises
    [KeyError] for a key that one of the options does not have. *)
Theorem create_buttons_returns_iff self options :
  ((∃ buttons, create_buttons self options = Return buttons) ↔
     Forall readable options)
  ∧ (∀ e, create_buttons self options = Raised e →
          ∃ key option,
            e = KeyError key ∧ option ∈ options ∧ option !! key = None).
Proof.
  unfold create_buttons. split; [split |].
  - intros [buttons Hret]. by eapply create_buttons_loop_returns.
  - intros Hall.
    destruct (create_buttons_loop_readable options Hall) as (buttons & Hret & _).
    by exists buttons.
  - apply create_buttons_loop_raises.
Qed.

Lemma create_buttons_returns_iff_witness :
  let options : list (gmap string json) :=
    [ {[ "button_type" := JString "postback"; "title" := JString "Yes" ]} ] in
  ∃ key option,
    create_buttons (__init__ (JString "42") "secret") options
      = Raised (KeyError key)
    ∧ option ∈ options ∧ option !! key = None.
Proof.
  intros options.
  destruct (proj2 (create_buttons_returns_iff
                     (__init__ (JString "42") "secret") options)
              (KeyError "payload"))
    as (key & option & Hkey & Hin & Hnone); [by vm_compute |].
  exists key, option. by rewrite <- Hkey.
Defined.

(** X25: the buttons of two lists of options, one after the other, are the
    buttons of the first list followed by the buttons of the second; an
    exception of the first list comes before one of the second. *)
Theorem create_buttons_app self options options' :
  create_buttons self (options ++ options')
    = buttons ← create_buttons self options;
      buttons' ← create_buttons self options';
      Return (buttons ++ buttons')%list.
Proof.
  unfold create_buttons. rewrite create_buttons_loop_app.
  destruct (create_buttons_loop [] options) as [buttons|e]; simpl; [| done].
  apply create_buttons_loop_shift.
Qed.

(** ** Text messages *)

(** X26: [buttons_template] does not send its buttons: for every list of
    buttons it returns the message that [text] returns for the same text
    and intent, which has no attachment. *)
Theorem buttons_template_is_text self (buttons message : json)
    (intent : option json) :
  buttons_template self buttons message intent
    = MessengerFlask.text self message intent.
Proof. done. Qed.

End MessengerFacts.
